(** * calvaDebug: the debug adapter that bridges VS Code's debug protocol
      and a Clojure REPL session (src/calvaDebug.ts)

    The development embeds the handlers of [CalvaDebugSession], the
    configuration provider, the adapter descriptor factory and
    [handleDebugResponse] as Rocq functions.  Handlers run in a small
    monad that threads the mutable state, collects what the handler
    sends (responses, events, REPL commands, notices) in order, and
    stops at the first JavaScript exception. *)

From Stdlib Require Import ZArith String.
From stdpp Require Import list strings gmap.

Open Scope string_scope.
Open Scope list_scope.
Set Warnings "-register-all".

(** ** JavaScript values

    The debug notification, the debug configuration and the capability
    record are untyped JavaScript objects in the source ([any],
    [DebugConfiguration] with an index signature), so they are modelled
    as values with string-keyed objects.  Numbers are the integers; no
    claim depends on fractional numbers or NaN. *)

Inductive value : Type :=
| VUndefined
| VNull
| VBool (b : bool)
| VNumber (n : Z)
| VString (s : string)
| VObject (fields : gmap string value).

(** [!v] is [negb (truthy v)]. *)
Definition truthy (v : value) : bool :=
  match v with
  | VUndefined | VNull => false
  | VBool b => b
  | VNumber n => negb (n =? 0)%Z
  | VString s => negb (String.eqb s "")
  | VObject _ => true
  end.

(** [o.p] for an object [o]: the stored value, [undefined] when the
    key is missing. *)
Definition field (o : gmap string value) (p : string) : value :=
  default VUndefined (o !! p).

Inductive error : Type :=
| TypeError (msg : string).

Inductive outcome (A : Type) : Type :=
| Return (a : A)
| Throw (e : error).
Arguments Return {A} a.
Arguments Throw {A} e.

(** [v.p] for an arbitrary value [v].  Reading a property of [undefined]
    or [null] throws; a primitive has no own properties (the handlers
    only read [key] and [file], which no primitive prototype carries). *)
Definition get_prop (v : value) (p : string) : outcome value :=
  match v with
  | VUndefined => Throw (TypeError ("Cannot read property '" +:+ p +:+ "' of undefined"))
  | VNull => Throw (TypeError ("Cannot read property '" +:+ p +:+ "' of null"))
  | VObject o => Return (field o p)
  | VBool _ | VNumber _ | VString _ => Return VUndefined
  end.

(** ** Exceptions, sent messages and the handler monad *)

(** What [async] gives back: a throw inside the body rejects the promise
    instead of reaching the caller. *)
Inductive promise (A : Type) : Type :=
| Fulfilled (a : A)
| Rejected (e : error).
Arguments Fulfilled {A} a.
Arguments Rejected {A} e.

(** *** Protocol objects of vscode-debugadapter, as their constructors
        fill them *)

Record Source : Type := mkSource {
  source_name : string;
  source_path : string;
  sourceReference : Z;
  source_origin : option string;
  adapterData : option string
}.

(** [new Source(name, path, id = 0, origin, data)]. *)
Definition new_Source (name path : string) (id : option Z)
    (origin data : option string) : Source :=
  {| source_name := name;
     source_path := path;
     sourceReference := default 0%Z id;
     source_origin := origin;
     adapterData := data |}.

Record StackFrame : Type := mkStackFrame {
  frame_id : Z;
  frame_name : string;
  frame_source : Source;
  frame_line : Z;
  frame_column : Z
}.

(** [new StackFrame(i, nm, src, ln, col)]. *)
Definition new_StackFrame (i : Z) (nm : string) (src : Source) (ln col : Z)
    : StackFrame :=
  {| frame_id := i; frame_name := nm; frame_source := src;
     frame_line := ln; frame_column := col |}.

Record Thread : Type := mkThread {
  thread_id : Z;
  thread_name : string
}.

Inductive Event : Type :=
| TerminatedEvent
| StoppedEvent (reason : string) (threadId : Z).

Record StackTraceBody : Type := mkStackTraceBody {
  stackFrames : list StackFrame;
  totalFrames : Z
}.

Record ThreadsBody : Type := mkThreadsBody {
  threads : list Thread
}.

(** A protocol response; [body] is [None] while it is [undefined]. *)
Record Response (B : Type) : Type := mkResponse {
  request_seq : Z;
  command : string;
  success : bool;
  body : option B
}.
Arguments mkResponse {B} _ _ _ _.
Arguments request_seq {B} _.
Arguments command {B} _.
Arguments success {B} _.
Arguments body {B} _.

Definition set_body {B C : Type} (r : Response B) (b : C) : Response C :=
  {| request_seq := request_seq r; command := command r;
     success := success r; body := Some b |}.

(** The responses a session sends, by the type of their body:
    attach, next and disconnect responses carry none. *)
Inductive AnyResponse : Type :=
| RAck (r : Response unit)
| RInitialize (r : Response (gmap string value))
| RStackTrace (r : Response StackTraceBody)
| RThreads (r : Response ThreadsBody).

(** Everything a handler makes observable, in the order of the calls. *)
Inductive effect : Type :=
| showInformationMessage (msg : string)
| sendEvent (e : Event)
| sendResponse (r : AnyResponse)
| sendDebugInput (session : nat) (input : string) (key : value)
| startDebugging (config : gmap string value).

(** State, output and exceptions: a computation maps the state to its
    outcome, the new state and the effects it emitted.  A throw keeps
    the state and the effects reached so far and skips the rest. *)
Definition M (St A : Type) : Type := St -> outcome A * St * list effect.

Definition ret {St A} (a : A) : M St A := fun s => (Return a, s, []).

Definition bind {St A B} (m : M St A) (k : A -> M St B) : M St B :=
  fun s =>
    match m s with
    | (Return a, s1, out1) =>
        match k a s1 with
        | (r, s2, out2) => (r, s2, out1 ++ out2)
        end
    | (Throw e, s1, out1) => (Throw e, s1, out1)
    end.

Definition throw {St A} (e : error) : M St A := fun s => (Throw e, s, []).
Definition emit {St} (x : effect) : M St unit := fun s => (Return tt, s, [x]).
Definition gets {St A} (f : St -> A) : M St A := fun s => (Return (f s), s, []).
Definition modify {St} (f : St -> St) : M St unit := fun s => (Return tt, f s, []).

Definition lift {St A} (o : outcome A) : M St A :=
  match o with
  | Return a => ret a
  | Throw e => throw e
  end.

(** The body of an [async] method without [await]: it runs to its end
    or to its first throw before the call returns the promise. *)
Definition async {St A} (m : M St A) : M St (promise A) :=
  fun s =>
    match m s with
    | (Return a, s1, out) => (Return (Fulfilled a), s1, out)
    | (Throw e, s1, out) => (Return (Rejected e), s1, out)
    end.

(** stdpp's monad notations: [x ← m; k] and [m;; k]. *)
#[global] Instance M_ret {St} : MRet (M St) := fun A => @ret St A.
#[global] Instance M_bind {St} : MBind (M St) := fun A B k m => @bind St A B m k.

Definition result {St A} (r : outcome A * St * list effect) : outcome A := r.1.1.
Definition final {St A} (r : outcome A * St * list effect) : St := r.1.2.
Definition sent {St A} (r : outcome A * St * list effect) : list effect := r.2.

(** ** The process-wide environment *)

(** [window.activeTextEditor], reduced to what the provider reads:
    [editor.document.languageId]. *)
Record TextEditor : Type := mkTextEditor {
  languageId : string
}.

Record Host : Type := mkHost {
  (** the application state atom behind [state.deref()] and
      [state.cursor] *)
  app_state : gmap string value;
  (** the REPL sessions [util.getSession] looks up, by language key *)
  nrepl_sessions : gmap string nat;
  (** [window.activeTextEditor] *)
  activeTextEditor : option TextEditor;
  (** whether [debug.activeDebugSession] is set *)
  activeDebugSession : bool
}.

Definition set_app_state (f : gmap string value -> gmap string value)
    (h : Host) : Host :=
  {| app_state := f (app_state h);
     nrepl_sessions := nrepl_sessions h;
     activeTextEditor := activeTextEditor h;
     activeDebugSession := activeDebugSession h |}.

(** Modelled from the spec: the [state] module is not among the sources.
    The spec (4.1, 9) gives the shared debug slot as a process-scoped
    store: recording overwrites the previous value, reading returns the
    latest stored value or an absent indicator, and neither can fail.
    The source reaches it as [state.deref().get(k)], which is
    [undefined] for a key never set, and [state.cursor.set(k, v)]. *)
Definition state_get (k : string) : M Host value :=
  gets (fun h => default VUndefined (app_state h !! k)).

Definition state_set (k : string) (v : value) : M Host unit :=
  modify (set_app_state (insert k v)).

(** Modelled from the spec: the [utilities] module is not among the
    sources.  The spec (1, 2) gives the registry as a lookup that returns
    the current language session for a language id, or nothing. *)
Definition getSession (key : string) : M Host (option nat) :=
  gets (fun h => nrepl_sessions h !! key).

(** ** Module constants *)

Definition CALVA_DEBUG_CONFIGURATION : gmap string value :=
  <["type" := VString "clojure"]>
    (<["name" := VString "Calva Debug"]>
       (<["request" := VString "attach"]> ∅)).

(** [{...a, ...b}]: the entries of [a], overwritten by those of [b]. *)
Definition spread (a b : gmap string value) : gmap string value := b ∪ a.

(** ** CalvaDebugSession *)

Record CalvaDebugSession : Type := mkSession {
  _debuggerLinesStartAt1 : option bool;
  _debuggerColumnsStartAt1 : option bool
}.

Definition THREAD_ID : Z := 1.

(** The fields of [InitializeRequestArguments] the handler reads; both
    are optional booleans. *)
Record InitializeRequestArguments : Type := mkInitializeArgs {
  linesStartAt1 : option bool;
  columnsStartAt1 : option bool
}.

(** A handler runs on its session object and the environment. *)
Record Runtime : Type := mkRuntime {
  this : CalvaDebugSession;
  host : Host
}.

Definition in_host {A} (m : M Host A) : M Runtime A :=
  fun s =>
    match m (host s) with
    | (r, h, out) => (r, {| this := this s; host := h |}, out)
    end.

Definition setDebuggerLinesStartAt1 (enable : option bool) : M Runtime unit :=
  modify (fun s =>
    {| this := {| _debuggerLinesStartAt1 := enable;
                  _debuggerColumnsStartAt1 := _debuggerColumnsStartAt1 (this s) |};
       host := host s |}).

Definition setDebuggerColumnsStartAt1 (enable : option bool) : M Runtime unit :=
  modify (fun s =>
    {| this := {| _debuggerLinesStartAt1 := _debuggerLinesStartAt1 (this s);
                  _debuggerColumnsStartAt1 := enable |};
       host := host s |}).

Section Session.

(** Collaborators from outside the repository: the session's path
    conversion (vscode-debugadapter; it may depend on the session
    object) and Node's [path.basename]. *)
Variable convertDebuggerPathToClient : CalvaDebugSession -> string -> string.
Variable basename : string -> string.

Definition initializeRequest (response : Response (gmap string value))
    (args : InitializeRequestArguments) : M Runtime unit :=
  cljSession ← in_host (getSession "clj");
  match cljSession with
  | None =>
      emit (showInformationMessage
              "You must be connected to a Clojure REPL to use debugging.");;
      emit (sendEvent TerminatedEvent);;
      mret tt
  | Some _ =>
      setDebuggerLinesStartAt1 (linesStartAt1 args);;
      setDebuggerColumnsStartAt1 (columnsStartAt1 args);;
      let response :=
        set_body response
          (spread (default ∅ (body response))
                  (<["supportsBreakpointLocationsRequest" := VBool true]> ∅)) in
      emit (sendResponse (RInitialize response))
  end.

Definition attachRequest (response : Response unit) : M Runtime (promise unit) :=
  async (
    emit (sendResponse (RAck response));;
    emit (sendEvent (StoppedEvent "breakpoint" THREAD_ID))).

Definition disconnectRequest (response : Response unit)
    : M Runtime (promise unit) :=
  async (
    cljSession ← in_host (getSession "clj");
    debugResponse ← in_host (state_get "debug-response");
    match cljSession with
    | Some session =>
        key ← lift (get_prop debugResponse "key");
        emit (sendDebugInput session ":quit" key)
    | None => mret tt
    end;;
    emit (sendResponse (RAck response))).

Definition nextRequest (response : Response unit) : M Runtime (promise unit) :=
  async (
    cljSession ← in_host (getSession "clj");
    debugResponse ← in_host (state_get "debug-response");
    match cljSession with
    | Some session =>
        key ← lift (get_prop debugResponse "key");
        emit (sendDebugInput session ":next" key)
    | None => mret tt
    end;;
    emit (sendResponse (RAck response))).

(** [convertDebuggerPathToClient(filePath)] and [basename(filePath)]
    on a value: both collaborators are functions of strings, and
    [path.basename] throws a [TypeError] on anything else, so a
    [file] that is not a string ends the handler before anything is
    sent. *)
Definition path_of (filePath : value) : outcome string :=
  match filePath with
  | VString f => Return f
  | _ => Throw (TypeError "The path argument must be of type string")
  end.

Definition stackTraceRequest (response : Response StackTraceBody)
    : M Runtime unit :=
  debugResponse ← in_host (state_get "debug-response");
  filePath ← lift (get_prop debugResponse "file");
  f ← lift (path_of filePath);
  self ← gets this;
  let convertedFilePath := convertDebuggerPathToClient self f in
  let source :=
    new_Source (basename f) convertedFilePath None None (Some "test-debug-data") in
  let stackFrames := [new_StackFrame 0 "test" source 18 0] in
  let response :=
    set_body response
      {| stackFrames := stackFrames;
         totalFrames := Z.of_nat (length stackFrames) |} in
  emit (sendResponse (RStackTrace response)).

Definition threadsRequest (response : Response ThreadsBody) : M Runtime unit :=
  let response :=
    set_body response
      {| threads := [ {| thread_id := THREAD_ID; thread_name := "thread 1" |} ] |} in
  emit (sendResponse (RThreads response)).

End Session.

(** [new Response(request)], as the dispatcher of vscode-debugadapter
    builds the object it hands to a handler. *)
Definition new_Response {B} (seq : Z) (cmd : string) : Response B :=
  {| request_seq := seq; command := cmd; success := true; body := None |}.

(** ** CalvaDebugConfigurationProvider *)

Definition resolveDebugConfiguration (h : Host) (folder : option string)
    (config : gmap string value) : gmap string value :=
  if negb (truthy (field config "type"))
     && negb (truthy (field config "request"))
     && negb (truthy (field config "name"))
  then
    match activeTextEditor h with
    | Some editor =>
        if String.eqb (languageId editor) "clojure"
        then spread config CALVA_DEBUG_CONFIGURATION
        else config
    | None => config
    end
  else config.

(** ** CalvaDebugAdapterDescriptorFactory *)

(** Node's [net] servers, as far as the factory uses them: a server is
    listening on a port or it is not (never bound, or closed). *)
Inductive server_state : Type :=
| Listening (port : Z)
| NotListening.

(** The servers created so far; a server is named by its position. *)
Record Net : Type := mkNet {
  servers : list server_state
}.

Record CalvaDebugAdapterDescriptorFactory : Type := mkFactory {
  server : option nat
}.

Record FactoryRuntime : Type := mkFactoryRuntime {
  factory : CalvaDebugAdapterDescriptorFactory;
  net : Net
}.

(** [new DebugAdapterServer(port)]. *)
Record DebugAdapterServer : Type := mkDebugAdapterServer {
  descriptor_port : Z
}.

Section Factory.

(** The operating system's answer to [listen(0)] for the n-th server
    of the process: the port it assigned, or nothing when it could
    not bind. *)
Variable os_listen : nat -> option Z.

(** [Net.createServer(callback).listen(0)]: the connection callback
    is kept by the server and does not run here. *)
Definition createServer_listen : M FactoryRuntime nat :=
  fun s =>
    let id := length (servers (net s)) in
    let st := match os_listen id with
              | Some p => Listening p
              | None => NotListening
              end in
    (Return id,
     {| factory := factory s;
        net := {| servers := servers (net s) ++ [st] |} |},
     []).

(** [server.address()]: the bound address, [null] when the server is
    not listening. *)
Definition address (id : nat) : M FactoryRuntime (option Z) :=
  gets (fun s =>
    match servers (net s) !! id with
    | Some (Listening p) => Some p
    | _ => None
    end).

(** [server.close()] without a callback: stops listening, and is
    silent on a server that is not listening. *)
Definition close (id : nat) : M FactoryRuntime unit :=
  modify (fun s =>
    {| factory := factory s;
       net := {| servers := <[id := NotListening]> (servers (net s)) |} |}).

Definition set_server (id : nat) : M FactoryRuntime unit :=
  modify (fun s => {| factory := {| server := Some id |}; net := net s |}).

Definition createDebugAdapterDescriptor : M FactoryRuntime DebugAdapterServer :=
  current ← gets (fun s => server (factory s));
  id ← match current with
       | None =>
           id ← createServer_listen;
           set_server id;;
           mret id
       | Some id => mret id
       end;
  addr ← address id;
  match addr with
  | Some port => mret {| descriptor_port := port |}
  | None => throw (TypeError "Cannot read property 'port' of null")
  end.

Definition dispose : M FactoryRuntime unit :=
  current ← gets (fun s => server (factory s));
  match current with
  | Some id => close id
  | None => mret tt
  end.

End Factory.

(** ** handleDebugResponse *)

Definition handleDebugResponse (response : value) : M Host bool :=
  state_set "debug-response" response;;
  active ← gets activeDebugSession;
  (if negb active
   then emit (startDebugging CALVA_DEBUG_CONFIGURATION)
   else mret tt);;
  mret false.

(** ** States used in the examples *)

(** A session object as its constructor leaves it. *)
Definition new_session : CalvaDebugSession :=
  {| _debuggerLinesStartAt1 := Some false;
     _debuggerColumnsStartAt1 := Some false |}.

(** The extension right after the REPL connected: a Clojure file is
    open, session 0 serves the clj key, nothing has hit a breakpoint
    yet. *)
Definition connected_host : Host :=
  {| app_state := ∅;
     nrepl_sessions := {[ "clj" := 0%nat ]};
     activeTextEditor := Some {| languageId := "clojure" |};
     activeDebugSession := false |}.

(** The same without a REPL. *)
Definition disconnected_host : Host :=
  {| app_state := ∅;
     nrepl_sessions := ∅;
     activeTextEditor := Some {| languageId := "clojure" |};
     activeDebugSession := false |}.

Definition connected : Runtime := {| this := new_session; host := connected_host |}.
Definition disconnected : Runtime := {| this := new_session; host := disconnected_host |}.

(** The notification [{key: "k1", file: "/a/b.clj"}]. *)
Definition notification_k1 : gmap string value :=
  <["key" := VString "k1"]> (<["file" := VString "/a/b.clj"]> ∅).

(** [x] is sent strictly before [y] in the trace [l]. *)
Definition sent_before (x y : effect) (l : list effect) : Prop :=
  ∃ l1 l2 l3, l = l1 ++ x :: l2 ++ y :: l3.

(** ** Reading the model *)

(** The shared debug slot as a handler sees it. *)
Definition debug_slot (s : Runtime) : option value :=
  app_state (host s) !! "debug-response".

(** The state after the router has recorded notification [n]. *)
Definition with_notification (n : value) (s : Runtime) : Runtime :=
  {| this := this s;
     host := set_app_state (insert "debug-response" n) (host s) |}.

(** The stack trace response built from a file path. *)
Definition frame_of (convert : CalvaDebugSession -> string -> string)
    (base : string -> string) (self : CalvaDebugSession) (f : string)
    : StackFrame :=
  new_StackFrame 0 "test"
    (new_Source (base f) (convert self f) None None (Some "test-debug-data"))
    18 0.

Ltac unfold_monad :=
  unfold mbind, mret, M_bind, M_ret, bind, ret, async, in_host, lift,
    getSession, state_get, state_set, gets, modify, emit, throw,
    setDebuggerLinesStartAt1, setDebuggerColumnsStartAt1 in *.

Ltac run_handler :=
  unfold result, final, sent, debug_slot in *; unfold_monad; simpl in *.

(** Goes through the members of a concrete trace. *)
Ltac in_trace H :=
  repeat (apply elem_of_cons in H as [H | H]; [try discriminate H |]);
  try (by apply elem_of_nil in H).

(** ** Predicates and drivers used in the statements *)

(** The active document is a Clojure document. *)
Definition clojure_active (h : Host) : Prop :=
  languageId <$> activeTextEditor h = Some "clojure".

(** The three identifying entries are all missing or falsy: the test
    [!config.type && !config.request && !config.name]. *)
Definition unidentified (config : gmap string value) : Prop :=
  truthy (field config "type") = false
  ∧ truthy (field config "request") = false
  ∧ truthy (field config "name") = false.

(** The two methods of the factory, and a caller that goes on after a
    method threw. *)
Inductive factory_call : Type :=
| Describe
| Dispose.

Definition call (os_listen : nat -> option Z) (c : factory_call)
    : M FactoryRuntime (option DebugAdapterServer) :=
  match c with
  | Describe => d ← createDebugAdapterDescriptor os_listen; mret (Some d)
  | Dispose => dispose;; mret None
  end.

Fixpoint run_calls (os_listen : nat -> option Z) (cs : list factory_call)
    (s : FactoryRuntime)
    : list (outcome (option DebugAdapterServer)) * FactoryRuntime :=
  match cs with
  | [] => ([], s)
  | c :: cs' =>
      let r := call os_listen c s in
      let rest := run_calls os_listen cs' (final r) in
      (result r :: rest.1, rest.2)
  end.

(** A factory as [new] leaves it, in a process that has created the
    servers [servers0] so far. *)
Definition new_factory (servers0 : list server_state) : FactoryRuntime :=
  {| factory := {| server := None |}; net := {| servers := servers0 |} |}.

(** The states a factory passes through: no listener yet, its one
    listener open on port [p], its one listener closed. *)
Inductive phase (servers0 : list server_state) (p : Z) : FactoryRuntime -> Prop :=
| Unopened : phase servers0 p (new_factory servers0)
| Opened :
    phase servers0 p
          {| factory := {| server := Some (length servers0) |};
             net := {| servers := servers0 ++ [Listening p] |} |}
| Closed :
    phase servers0 p
          {| factory := {| server := Some (length servers0) |};
             net := {| servers := servers0 ++ [NotListening] |} |}.

(** The listener has not been closed. *)
Inductive live (servers0 : list server_state) (p : Z) : FactoryRuntime -> Prop :=
| live_Unopened : live servers0 p (new_factory servers0)
| live_Opened :
    live servers0 p
         {| factory := {| server := Some (length servers0) |};
            net := {| servers := servers0 ++ [Listening p] |} |}.

(** ** Concrete inputs *)

(** A session that converts no path and a base name that keeps the
    whole path stand in for the two outside collaborators. *)
Definition same_path (_ : CalvaDebugSession) (path : string) : string := path.
Definition whole_path (path : string) : string := path.

(** The state once the router has recorded [{key: "k1", file: "/a/b.clj"}]. *)
Definition stopped_at_b : Runtime :=
  with_notification (VObject notification_k1) connected.

(** The response objects the dispatcher hands to the handlers. *)
Definition initialize_1 : Response (gmap string value) := new_Response 1 "initialize".
Definition stackTrace_3 : Response StackTraceBody := new_Response 3 "stackTrace".
Definition next_4 : Response unit := new_Response 4 "next".
Definition stackTrace_5 : Response StackTraceBody := new_Response 5 "stackTrace".
Definition disconnect_6 : Response unit := new_Response 6 "disconnect".

(** The configuration of a run without debugging started with no
    launch.json: it identifies no adapter but is not empty. *)
Definition noDebug_config : gmap string value := {[ "noDebug" := VBool true ]}.

(** A process with no server yet, whose operating system hands out
    port 49152 onwards. *)
Definition ephemeral (n : nat) : option Z := Some (49152 + Z.of_nat n)%Z.

(** ** Further notions for the statements *)

(** What [state.deref().get('debug-response')] returns. *)
Definition slot_value (s : Runtime) : value :=
  default VUndefined (debug_slot s).

(** [undefined] and [null]: the values whose properties cannot be read. *)
Definition nullish (v : value) : bool :=
  match v with
  | VUndefined | VNull => true
  | _ => false
  end.


(** The part of a response that names the request it answers. *)
Definition header {B} (r : Response B) : Z * string * bool :=
  (request_seq r, command r, success r).

Definition any_header (r : AnyResponse) : Z * string * bool :=
  match r with
  | RAck r => header r
  | RInitialize r => header r
  | RStackTrace r => header r
  | RThreads r => header r
  end.

(** The responses in a trace. *)
Definition responses (l : list effect) : list AnyResponse :=
  omap (fun x => match x with sendResponse r => Some r | _ => None end) l.

(** A request as it reaches the session: the handler to run, with the
    response object and the arguments it is handed. *)
Inductive request : Type :=
| Initialize (response : Response (gmap string value))
    (args : InitializeRequestArguments)
| Attach (response : Response unit)
| Disconnect (response : Response unit)
| Next (response : Response unit)
| StackTrace (response : Response StackTraceBody)
| Threads (response : Response ThreadsBody).

Definition request_header (q : request) : Z * string * bool :=
  match q with
  | Initialize r _ => header r
  | Attach r | Disconnect r | Next r => header r
  | StackTrace r => header r
  | Threads r => header r
  end.

(** Runs the handler of a request.  The promise of an asynchronous
    handler is dropped; what the caller does with a throw or a
    rejection is outside the repository and not part of the run. *)
Definition handle (convert : CalvaDebugSession -> string -> string)
    (base : string -> string) (q : request) : M Runtime unit :=
  match q with
  | Initialize r args => initializeRequest r args
  | Attach r => attachRequest r;; mret tt
  | Disconnect r => disconnectRequest r;; mret tt
  | Next r => nextRequest r;; mret tt
  | StackTrace r => stackTraceRequest convert base r
  | Threads r => threadsRequest r
  end.

(** Runs the handlers of a sequence of requests, one after the other,
    going on after a handler that threw. *)
Fixpoint handle_all (convert : CalvaDebugSession -> string -> string)
    (base : string -> string) (qs : list request) (s : Runtime)
    : Runtime * list effect :=
  match qs with
  | [] => (s, [])
  | q :: qs' =>
      let r := handle convert base q s in
      let rest := handle_all convert base qs' (final r) in
      (rest.1, sent r ++ rest.2)
  end.

(** The factory holds no server, or the one server created right after
    [servers0]; the servers the process had before are as they were. *)
Inductive owns (servers0 : list server_state) : FactoryRuntime -> Prop :=
| owns_none : owns servers0 (new_factory servers0)
| owns_one (x : server_state) :
    owns servers0
         {| factory := {| server := Some (length servers0) |};
            net := {| servers := servers0 ++ [x] |} |}.

(** The factory after its listener was closed. *)
Definition closed_factory (servers0 : list server_state) : FactoryRuntime :=
  {| factory := {| server := Some (length servers0) |};
     net := {| servers := servers0 ++ [NotListening] |} |}.

(** The factory with its listener open on port [p]. *)
Definition opened_factory (servers0 : list server_state) (p : Z)
    : FactoryRuntime :=
  {| factory := {| server := Some (length servers0) |};
     net := {| servers := servers0 ++ [Listening p] |} |}.

(** The calls [cs] have disposed a listener: some
    createDebugAdapterDescriptor in [cs] is followed, at once or later,
    by a dispose. *)
Definition shut (cs : list factory_call) : Prop :=
  ∃ i j, (i < j)%nat ∧ cs !! i = Some Describe ∧ cs !! j = Some Dispose.

(** A notification that names a file but carries no key. *)
Definition notification_nokey : gmap string value :=
  {[ "file" := VString "/src/core.clj" ]}.

(** A configuration that already names another adapter. *)
Definition node_config : gmap string value :=
  <["type" := VString "node"]> (<["request" := VString "launch"]> ∅).

(** * Properties *)

Lemma handleDebugResponse_records (n : value) (h : Host) :
  final (handleDebugResponse n h) = set_app_state (insert "debug-response" n) h
  ∧ result (handleDebugResponse n h) = Return false.
Proof.
  unfold handleDebugResponse. run_handler.
  destruct (activeDebugSession h); simpl; auto.
Qed.


Section SessionProperties.

Variable convertDebuggerPathToClient : CalvaDebugSession -> string -> string.
Variable basename : string -> string.

Local Abbreviation stackTrace := (stackTraceRequest convertDebuggerPathToClient basename).

(** *** Handlers on a state without a usable notification *)

Lemma stackTraceRequest_slot_empty (response : Response StackTraceBody)
    (s : Runtime) :
  debug_slot s = None ->
  stackTrace response s
  = (Throw (TypeError "Cannot read property 'file' of undefined"), s, []).
Proof.
  intros H. unfold stackTraceRequest. run_handler.
  rewrite H. simpl. destruct s as [t h]. reflexivity.
Qed.

Lemma nextRequest_slot_empty (response : Response unit) (s : Runtime) (id : nat) :
  nrepl_sessions (host s) !! "clj" = Some id ->
  debug_slot s = None ->
  nextRequest response s
  = (Return (Rejected (TypeError "Cannot read property 'key' of undefined")), s, []).
Proof.
  intros Hs H. unfold nextRequest. run_handler.
  rewrite Hs, H. simpl. destruct s as [t h]. reflexivity.
Qed.

Lemma disconnectRequest_slot_empty (response : Response unit) (s : Runtime)
    (id : nat) :
  nrepl_sessions (host s) !! "clj" = Some id ->
  debug_slot s = None ->
  disconnectRequest response s
  = (Return (Rejected (TypeError "Cannot read property 'key' of undefined")), s, []).
Proof.
  intros Hs H. unfold disconnectRequest. run_handler.
  rewrite Hs, H. simpl. destruct s as [t h]. reflexivity.
Qed.

(** *** Handlers on a state with a notification *)

Lemma stackTraceRequest_with_file (response : Response StackTraceBody)
    (s : Runtime) (o : gmap string value) (f : string) :
  debug_slot s = Some (VObject o) ->
  o !! "file" = Some (VString f) ->
  stackTrace response s
  = (Return tt, s,
     [sendResponse (RStackTrace (set_body response
        {| stackFrames := [frame_of convertDebuggerPathToClient basename (this s) f];
           totalFrames := 1 |}))]).
Proof.
  intros H Hf. unfold stackTraceRequest. run_handler.
  rewrite H. simpl. unfold field. rewrite Hf. simpl.
  destruct s as [t h]. reflexivity.
Qed.

Lemma nextRequest_with_notification (response : Response unit) (s : Runtime)
    (o : gmap string value) :
  debug_slot s = Some (VObject o) ->
  nextRequest response s
  = (Return (Fulfilled tt), s,
     match nrepl_sessions (host s) !! "clj" with
     | Some id => [sendDebugInput id ":next" (field o "key")]
     | None => []
     end ++ [sendResponse (RAck response)]).
Proof.
  intros H. unfold nextRequest. run_handler.
  rewrite H. simpl. destruct s as [t h]; simpl.
  destruct (nrepl_sessions h !! "clj"); reflexivity.
Qed.

Lemma disconnectRequest_with_notification (response : Response unit)
    (s : Runtime) (o : gmap string value) :
  debug_slot s = Some (VObject o) ->
  disconnectRequest response s
  = (Return (Fulfilled tt), s,
     match nrepl_sessions (host s) !! "clj" with
     | Some id => [sendDebugInput id ":quit" (field o "key")]
     | None => []
     end ++ [sendResponse (RAck response)]).
Proof.
  intros H. unfold disconnectRequest. run_handler.
  rewrite H. simpl. destruct s as [t h]; simpl.
  destruct (nrepl_sessions h !! "clj"); reflexivity.
Qed.

(** Without a language session the slot is never read. *)
Lemma nextRequest_without_session (response : Response unit) (s : Runtime) :
  nrepl_sessions (host s) !! "clj" = None ->
  nextRequest response s
  = (Return (Fulfilled tt), s, [sendResponse (RAck response)]).
Proof.
  intros H. unfold nextRequest. run_handler.
  rewrite H. simpl. destruct s as [t h]. reflexivity.
Qed.

Lemma disconnectRequest_without_session (response : Response unit)
    (s : Runtime) :
  nrepl_sessions (host s) !! "clj" = None ->
  disconnectRequest response s
  = (Return (Fulfilled tt), s, [sendResponse (RAck response)]).
Proof.
  intros H. unfold disconnectRequest. run_handler.
  rewrite H. simpl. destruct s as [t h]. reflexivity.
Qed.

(** *** The claims about the session *)

(** C1 (as the code behaves): a stackTrace request on a state whose
    debug slot was never written does not produce the empty stack
    trace; reading [file] of [undefined] throws a TypeError and no
    response is sent. *)
Theorem C1_stackTrace_without_notification_throws
    (response : Response StackTraceBody) (s : Runtime) :
  debug_slot s = None ->
  result (stackTrace response s)
  = Throw (TypeError "Cannot read property 'file' of undefined")
  ∧ sent (stackTrace response s) = []
  ∧ final (stackTrace response s) = s.
Proof.
  intros H. rewrite (stackTraceRequest_slot_empty response s H). auto.
Qed.

(** C2 (as the code behaves): with a language session but no recorded
    notification, next and disconnect read [key] of [undefined]: the
    promise is rejected, and neither the command nor the response is
    sent. *)
Theorem C2_next_disconnect_without_notification_reject
    (response : Response unit) (s : Runtime) (id : nat) :
  nrepl_sessions (host s) !! "clj" = Some id ->
  debug_slot s = None ->
  (result (nextRequest response s)
   = Return (Rejected (TypeError "Cannot read property 'key' of undefined"))
   ∧ sent (nextRequest response s) = [])
  ∧ (result (disconnectRequest response s)
     = Return (Rejected (TypeError "Cannot read property 'key' of undefined"))
     ∧ sent (disconnectRequest response s) = []).
Proof.
  intros Hs H.
  rewrite (nextRequest_slot_empty response s id Hs H).
  rewrite (disconnectRequest_slot_empty response s id Hs H).
  auto.
Qed.

(** C3: an initialize request processed while no language session
    exists emits the user notice and then exactly one terminated
    event, and nothing else: no response is sent (so no capabilities
    are declared) and the session and its environment are unchanged. *)
Theorem C3_initialize_without_session
    (response : Response (gmap string value))
    (args : InitializeRequestArguments) (s : Runtime) :
  nrepl_sessions (host s) !! "clj" = None ->
  sent (initializeRequest response args s)
  = [showInformationMessage
       "You must be connected to a Clojure REPL to use debugging.";
     sendEvent TerminatedEvent]
  ∧ (∀ r, sendResponse r ∉ sent (initializeRequest response args s))
  ∧ final (initializeRequest response args s) = s
  ∧ result (initializeRequest response args s) = Return tt.
Proof.
  intros H.
  assert (E : initializeRequest response args s
              = (Return tt, s,
                 [showInformationMessage
                    "You must be connected to a Clojure REPL to use debugging.";
                  sendEvent TerminatedEvent])).
  { unfold initializeRequest. run_handler. rewrite H. simpl.
    destruct s as [t h]. reflexivity. }
  rewrite E. unfold sent, final, result. simpl.
  repeat split; auto.
  intros r Hin.
  apply elem_of_cons in Hin as [Hin | Hin]; [discriminate |].
  apply elem_of_cons in Hin as [Hin | Hin]; [discriminate |].
  by apply elem_of_nil in Hin.
Qed.

(** C4: in every state, whatever the debug slot holds, an attach
    request sends exactly the success response and then the Stopped
    event with reason breakpoint and thread id 1; the response comes
    strictly before the event. *)
Theorem C4_attach_response_before_stopped (response : Response unit)
    (s : Runtime) :
  sent (attachRequest response s)
  = [sendResponse (RAck response); sendEvent (StoppedEvent "breakpoint" 1)]
  ∧ sent_before (sendResponse (RAck response))
      (sendEvent (StoppedEvent "breakpoint" 1))
      (sent (attachRequest response s))
  ∧ ¬ sent_before (sendEvent (StoppedEvent "breakpoint" 1))
        (sendResponse (RAck response))
        (sent (attachRequest response s))
  ∧ result (attachRequest response s) = Return (Fulfilled tt)
  ∧ final (attachRequest response s) = s.
Proof.
  assert (E : attachRequest response s
              = (Return (Fulfilled tt), s,
                 [sendResponse (RAck response);
                  sendEvent (StoppedEvent "breakpoint" 1)])).
  { unfold attachRequest. run_handler. reflexivity. }
  rewrite E. unfold sent, final, result. simpl.
  split; [reflexivity |]. split; [| split; [| auto]].
  - exists [], [], []. reflexivity.
  - intros (l1 & l2 & l3 & Hl).
    destruct l1 as [| a [| b l1]]; simpl in Hl.
    + discriminate Hl.
    + inversion Hl as [[Ha Hr]]. destruct l2; discriminate Hr.
    + inversion Hl as [[Ha Hb Hr]]. destruct l1; discriminate Hr.
Qed.


(** C6: when a notification [n] is current, a next request changes
    neither the debug slot nor anything else in the state, so the
    stackTrace request that follows answers as it would have before
    the step; when [n] names a file, that answer is the one frame
    built from it. *)
Theorem C6_next_keeps_notification (response : Response unit)
    (response' : Response StackTraceBody) (s : Runtime)
    (n : gmap string value) :
  debug_slot s = Some (VObject n) ->
  let s' := final (nextRequest response s) in
  result (nextRequest response s) = Return (Fulfilled tt)
  ∧ debug_slot s' = Some (VObject n)
  ∧ s' = s
  ∧ stackTrace response' s' = stackTrace response' s
  ∧ ∀ f, n !! "file" = Some (VString f) ->
      sent (stackTrace response' s')
      = [sendResponse (RStackTrace (set_body response'
           {| stackFrames := [frame_of convertDebuggerPathToClient basename (this s) f];
              totalFrames := 1 |}))].
Proof.
  intros H s'. subst s'.
  rewrite (nextRequest_with_notification response s n H).
  unfold final, result. simpl.
  repeat split; auto.
  intros f Hf.
  rewrite (stackTraceRequest_with_file response' s n f H Hf). reflexivity.
Qed.



End SessionProperties.

(** ** The configuration provider *)

Lemma CALVA_DEBUG_CONFIGURATION_other (k : string) :
  k ≠ "type" -> k ≠ "name" -> k ≠ "request" ->
  CALVA_DEBUG_CONFIGURATION !! k = None.
Proof.
  intros Ht Hn Hr. unfold CALVA_DEBUG_CONFIGURATION.
  rewrite !lookup_insert_ne by congruence. apply lookup_empty.
Qed.

Lemma spread_lookup (a b : gmap string value) (k : string) :
  spread a b !! k = match b !! k with Some v => Some v | None => a !! k end.
Proof.
  unfold spread. rewrite lookup_union.
  destruct (b !! k), (a !! k); reflexivity.
Qed.

Lemma spread_empty_l (b : gmap string value) : spread ∅ b = b.
Proof. unfold spread. apply (right_id_L ∅ (∪)). Qed.

(** C8 (amended): the provider returns its input unchanged whenever
    type, request or name holds a truthy value, and whenever the active
    document is not a Clojure document (or there is none).  When all
    three are missing or falsy and the active document is a Clojure
    document, it returns the input with the entries type = clojure,
    name = Calva Debug and request = attach written over it; every
    other entry of the input is kept.  For the empty input that is the
    fixed default. *)
Theorem C8_resolveDebugConfiguration_merges (h : Host)
    (folder : option string) (config : gmap string value) :
  (¬ unidentified config -> resolveDebugConfiguration h folder config = config)
  ∧ (¬ clojure_active h -> resolveDebugConfiguration h folder config = config)
  ∧ (unidentified config -> clojure_active h ->
       resolveDebugConfiguration h folder config !! "type" = Some (VString "clojure")
       ∧ resolveDebugConfiguration h folder config !! "name" = Some (VString "Calva Debug")
       ∧ resolveDebugConfiguration h folder config !! "request" = Some (VString "attach")
       ∧ ∀ k, k ≠ "type" -> k ≠ "name" -> k ≠ "request" ->
           resolveDebugConfiguration h folder config !! k = config !! k)
  ∧ (config = ∅ -> clojure_active h ->
       resolveDebugConfiguration h folder config = CALVA_DEBUG_CONFIGURATION).
Proof.
  unfold resolveDebugConfiguration, unidentified, clojure_active.
  split; [| split; [| split]].
  - intros Hn.
    destruct (truthy (field config "type")) eqn:Et; simpl; [reflexivity |].
    destruct (truthy (field config "request")) eqn:Er; simpl; [reflexivity |].
    destruct (truthy (field config "name")) eqn:En; simpl; [reflexivity |].
    exfalso. apply Hn. auto.
  - intros Hn.
    destruct (negb _ && negb _ && negb _); [| reflexivity].
    destruct (activeTextEditor h) as [e |]; [| reflexivity].
    destruct (String.eqb (languageId e) "clojure") eqn:E; [| reflexivity].
    apply String.eqb_eq in E. exfalso. apply Hn. simpl. by rewrite E.
  - intros (-> & -> & ->) Hc. simpl.
    destruct (activeTextEditor h) as [e |]; [| discriminate].
    injection Hc as ->. simpl.
    rewrite !spread_lookup. repeat split; try reflexivity.
    intros k Ht Hn Hr.
    rewrite spread_lookup, CALVA_DEBUG_CONFIGURATION_other by assumption.
    reflexivity.
  - intros -> Hc. unfold field. rewrite !lookup_empty. simpl.
    destruct (activeTextEditor h) as [e |]; [| discriminate].
    injection Hc as ->. simpl. apply spread_empty_l.
Qed.

(** ** The adapter descriptor factory *)

Section FactoryProperties.

Variable os_listen : nat -> option Z.
Variable servers0 : list server_state.
Variable p : Z.
Hypothesis bind_ok : os_listen (length servers0) = Some p.

Local Abbreviation listener := (length servers0).
Local Abbreviation phase := (phase servers0 p).
Local Abbreviation live := (live servers0 p).

Lemma live_phase (s : FactoryRuntime) : live s -> phase s.
Proof. intros []; constructor. Qed.

Lemma lookup_listener (x : server_state) :
  (servers0 ++ [x]) !! listener = Some x.
Proof. by apply list_lookup_middle. Qed.

Lemma close_listener (x : server_state) :
  <[listener := NotListening]> (servers0 ++ [x]) = servers0 ++ [NotListening].
Proof.
  rewrite insert_app_r_alt by lia.
  replace (listener - length servers0)%nat with 0%nat by lia.
  reflexivity.
Qed.

Lemma describe_live (s : FactoryRuntime) :
  live s ->
  result (call os_listen Describe s) = Return (Some {| descriptor_port := p |})
  ∧ live (final (call os_listen Describe s)).
Proof.
  intros []; unfold call, createDebugAdapterDescriptor, createServer_listen,
    address, set_server, new_factory; run_handler.
  - rewrite bind_ok, lookup_listener. simpl. split; [reflexivity | constructor].
  - rewrite lookup_listener. simpl. split; [reflexivity | constructor].
Qed.

Lemma describe_phase (s : FactoryRuntime) :
  phase s ->
  (result (call os_listen Describe s) = Return (Some {| descriptor_port := p |})
   ∨ ∃ e, result (call os_listen Describe s) = Throw e)
  ∧ phase (final (call os_listen Describe s)).
Proof.
  intros [].
  - destruct (describe_live _ (live_Unopened servers0 p)) as [Hr Hl].
    split; [by left | by apply live_phase].
  - destruct (describe_live _ (live_Opened servers0 p)) as [Hr Hl].
    split; [by left | by apply live_phase].
  - unfold call, createDebugAdapterDescriptor, address; run_handler.
    rewrite lookup_listener. simpl. split; [right; eauto | constructor].
Qed.

Lemma dispose_phase (s : FactoryRuntime) :
  phase s ->
  result (call os_listen Dispose s) = Return None
  ∧ phase (final (call os_listen Dispose s)).
Proof.
  intros []; unfold call, dispose, close, new_factory; run_handler.
  - split; [reflexivity | constructor].
  - rewrite close_listener. split; [reflexivity | constructor].
  - rewrite close_listener. split; [reflexivity | constructor].
Qed.

Lemma run_calls_ports (cs : list factory_call) (s : FactoryRuntime)
    (d : DebugAdapterServer) :
  phase s ->
  Return (Some d) ∈ (run_calls os_listen cs s).1 ->
  descriptor_port d = p.
Proof.
  revert s. induction cs as [| c cs IH]; intros s Hs Hin; simpl in Hin.
  - by apply elem_of_nil in Hin.
  - apply elem_of_cons in Hin as [Hd | Hin].
    + destruct c.
      * destruct (describe_phase s Hs) as [[Hr | [e Hr]] _];
          rewrite Hr in Hd; [| discriminate].
        by injection Hd as ->.
      * destruct (dispose_phase s Hs) as [Hr _]. rewrite Hr in Hd. discriminate.
    + apply (IH (final (call os_listen c s))); [| assumption].
      destruct c; [by apply describe_phase | by apply dispose_phase].
Qed.

Lemma run_calls_dispose (cs : list factory_call) (s : FactoryRuntime) (i : nat) :
  phase s ->
  cs !! i = Some Dispose ->
  (run_calls os_listen cs s).1 !! i = Some (Return None).
Proof.
  revert s i. induction cs as [| c cs IH]; intros s i Hs Hi; [discriminate |].
  destruct i as [| i]; simpl in *.
  - injection Hi as ->. f_equal. by apply dispose_phase.
  - apply IH; [| assumption].
    destruct c; [by apply describe_phase | by apply dispose_phase].
Qed.

End FactoryProperties.

(** * Concrete runs *)
Lemma C1_stackTrace_without_notification_throws_witness :
  debug_slot connected = None
  ∧ (result (stackTraceRequest same_path whole_path stackTrace_3 connected)
     = Throw (TypeError "Cannot read property 'file' of undefined")
     ∧ sent (stackTraceRequest same_path whole_path stackTrace_3 connected)
       = []
     ∧ final (stackTraceRequest same_path whole_path stackTrace_3 connected)
       = connected).
Proof.
  split; [reflexivity |].
  apply (C1_stackTrace_without_notification_throws same_path whole_path
           stackTrace_3 connected).
  reflexivity.
Defined.

Lemma C2_next_disconnect_without_notification_reject_witness :
  nrepl_sessions (host connected) !! "clj" = Some 0%nat
  ∧ debug_slot connected = None
  ∧ (result (nextRequest next_4 connected)
     = Return (Rejected (TypeError "Cannot read property 'key' of undefined"))
     ∧ sent (nextRequest next_4 connected) = [])
  ∧ (result (disconnectRequest disconnect_6 connected)
     = Return (Rejected (TypeError "Cannot read property 'key' of undefined"))
     ∧ sent (disconnectRequest disconnect_6 connected) = []).
Proof.
  split; [reflexivity |]. split; [reflexivity |].
  split.
  - apply (C2_next_disconnect_without_notification_reject
             next_4 connected 0%nat); reflexivity.
  - apply (C2_next_disconnect_without_notification_reject
             disconnect_6 connected 0%nat); reflexivity.
Defined.

Lemma C3_initialize_without_session_witness :
  nrepl_sessions (host disconnected) !! "clj" = None
  ∧ sent (initializeRequest initialize_1
            {| linesStartAt1 := Some true; columnsStartAt1 := Some true |}
            disconnected)
    = [showInformationMessage
         "You must be connected to a Clojure REPL to use debugging.";
       sendEvent TerminatedEvent].
Proof.
  split; [reflexivity |].
  destruct (C3_initialize_without_session initialize_1
              {| linesStartAt1 := Some true; columnsStartAt1 := Some true |}
              disconnected) as [Hsent _]; [reflexivity |].
  exact Hsent.
Defined.


Lemma C6_next_keeps_notification_witness :
  debug_slot stopped_at_b = Some (VObject notification_k1)
  ∧ final (nextRequest next_4 stopped_at_b) = stopped_at_b
  ∧ stackTraceRequest same_path whole_path stackTrace_5
      (final (nextRequest next_4 stopped_at_b))
    = stackTraceRequest same_path whole_path stackTrace_5
        stopped_at_b.
Proof.
  split; [reflexivity |].
  destruct (C6_next_keeps_notification same_path whole_path
              next_4 stackTrace_5 stopped_at_b notification_k1)
    as (_ & _ & Hstate & Htrace & _); [reflexivity |].
  split; [exact Hstate | exact Htrace].
Defined.


(** C8, as stated, fails: type, request and name are all absent and the
    active document is a Clojure document, yet the result is not the
    fixed default; it still carries the noDebug entry of the input. *)
Lemma C8_counterexample_result_keeps_input :
  noDebug_config !! "type" = None
  ∧ noDebug_config !! "request" = None
  ∧ noDebug_config !! "name" = None
  ∧ languageId <$> activeTextEditor connected_host = Some "clojure"
  ∧ resolveDebugConfiguration connected_host None noDebug_config
    ≠ CALVA_DEBUG_CONFIGURATION.
Proof.
  repeat (split; [reflexivity |]).
  intros H.
  apply (f_equal (lookup "noDebug")) in H.
  vm_compute in H. discriminate H.
Qed.

Lemma C8_resolveDebugConfiguration_merges_witness :
  unidentified noDebug_config
  ∧ clojure_active connected_host
  ∧ resolveDebugConfiguration connected_host None noDebug_config !! "type"
    = Some (VString "clojure")
  ∧ resolveDebugConfiguration connected_host None noDebug_config !! "noDebug"
    = noDebug_config !! "noDebug"
  ∧ resolveDebugConfiguration connected_host None ∅ = CALVA_DEBUG_CONFIGURATION.
Proof.
  assert (Hu : unidentified noDebug_config) by (repeat split; reflexivity).
  assert (Hc : clojure_active connected_host) by reflexivity.
  destruct (C8_resolveDebugConfiguration_merges connected_host None noDebug_config)
    as (_ & _ & Hmerge & _).
  destruct (Hmerge Hu Hc) as (Htype & _ & _ & Hother).
  destruct (C8_resolveDebugConfiguration_merges connected_host None ∅)
    as (_ & _ & _ & Hempty).
  split; [exact Hu |]. split; [exact Hc |]. split; [exact Htype |].
  split; [apply Hother; discriminate | apply Hempty; reflexivity].
Defined.

(** A debug session started by hand (F5 in a Clojure file with no
    launch.json, REPL connected, no breakpoint hit): the provider fills
    in the default configuration, initialize succeeds, attach announces
    a stop, and the stack trace request that the stop provokes throws. *)
Example manual_start_then_stackTrace :
  resolveDebugConfiguration connected_host None ∅ = CALVA_DEBUG_CONFIGURATION
  ∧ sent (initializeRequest initialize_1
            {| linesStartAt1 := Some true; columnsStartAt1 := Some true |}
            connected)
    = [sendResponse (RInitialize (set_body initialize_1
         {[ "supportsBreakpointLocationsRequest" := VBool true ]}))]
  ∧ sent (attachRequest next_4 connected)
    = [sendResponse (RAck next_4); sendEvent (StoppedEvent "breakpoint" 1)]
  ∧ stackTraceRequest same_path whole_path stackTrace_3 connected
    = (Throw (TypeError "Cannot read property 'file' of undefined"), connected, []).
Proof.
  split; [| split; [| split]].
  - unfold resolveDebugConfiguration. simpl. apply spread_empty_l.
  - vm_compute. reflexivity.
  - reflexivity.
  - by apply stackTraceRequest_slot_empty.
Qed.

(** * Further properties of the code *)

(** ** The router: handleDebugResponse *)

Lemma handleDebugResponse_run (n : value) (h : Host) :
  handleDebugResponse n h
  = (Return false, set_app_state (insert "debug-response" n) h,
     if activeDebugSession h then []
     else [startDebugging CALVA_DEBUG_CONFIGURATION]).
Proof.
  unfold handleDebugResponse. run_handler.
  destruct (activeDebugSession h); reflexivity.
Qed.

(** X1: handleDebugResponse never throws and returns false; afterwards
    the debug slot holds the notification it was given, every other
    entry of the application state is as before, and the REPL sessions,
    the active editor and the active debug session are untouched. *)
Theorem X1_handleDebugResponse_writes_only_the_slot (n : value) (h : Host) :
  let h' := final (handleDebugResponse n h) in
  result (handleDebugResponse n h) = Return false
  ∧ app_state h' !! "debug-response" = Some n
  ∧ (∀ k, k ≠ "debug-response" -> app_state h' !! k = app_state h !! k)
  ∧ nrepl_sessions h' = nrepl_sessions h
  ∧ activeTextEditor h' = activeTextEditor h
  ∧ activeDebugSession h' = activeDebugSession h.
Proof.
  rewrite handleDebugResponse_run. unfold result, final. simpl.
  split; [reflexivity |]. split; [apply lookup_insert_eq |].
  split; [| auto].
  intros k Hk. by apply lookup_insert_ne.
Qed.

(** handleDebugResponse asks the front end to start a debug session
    exactly when none is active, with the default configuration. *)
Lemma handleDebugResponse_starts_when_idle (n : value) (h : Host) :
  sent (handleDebugResponse n h)
  = if activeDebugSession h then []
    else [startDebugging CALVA_DEBUG_CONFIGURATION].
Proof. rewrite handleDebugResponse_run. reflexivity. Qed.

(** X2: a second notification replaces the first without trace: the
    state after two notifications is the state after the second
    alone. *)
Theorem X2_handleDebugResponse_latest_wins (n1 n2 : value) (h : Host) :
  final (handleDebugResponse n2 (final (handleDebugResponse n1 h)))
  = final (handleDebugResponse n2 h).
Proof.
  rewrite !handleDebugResponse_run. unfold final, set_app_state. simpl.
  by rewrite insert_insert_eq.
Qed.

(** X3: whatever configuration handleDebugResponse asks to start, the
    configuration provider hands it on unchanged, whichever document is
    active. *)
Theorem X3_started_configuration_passes_provider (n : value) (h h' : Host)
    (folder : option string) (config : gmap string value) :
  startDebugging config ∈ sent (handleDebugResponse n h) ->
  resolveDebugConfiguration h' folder config = config.
Proof.
  rewrite handleDebugResponse_run. unfold sent. simpl.
  destruct (activeDebugSession h); intros Hin.
  - by apply elem_of_nil in Hin.
  - apply list_elem_of_singleton in Hin. injection Hin as ->. reflexivity.
Qed.

(** ** The session handlers on an arbitrary state *)

Section SessionCases.

Variable convertDebuggerPathToClient : CalvaDebugSession -> string -> string.
Variable basename : string -> string.

Local Abbreviation stackTrace := (stackTraceRequest convertDebuggerPathToClient basename).
Local Abbreviation handle := (handle convertDebuggerPathToClient basename).
Local Abbreviation handle_all := (handle_all convertDebuggerPathToClient basename).

Lemma initializeRequest_run (response : Response (gmap string value))
    (args : InitializeRequestArguments) (s : Runtime) :
  initializeRequest response args s
  = match nrepl_sessions (host s) !! "clj" with
    | None =>
        (Return tt, s,
         [showInformationMessage
            "You must be connected to a Clojure REPL to use debugging.";
          sendEvent TerminatedEvent])
    | Some _ =>
        (Return tt,
         {| this := {| _debuggerLinesStartAt1 := linesStartAt1 args;
                       _debuggerColumnsStartAt1 := columnsStartAt1 args |};
            host := host s |},
         [sendResponse (RInitialize (set_body response
            (spread (default ∅ (body response))
               (<["supportsBreakpointLocationsRequest" := VBool true]> ∅))))])
    end.
Proof.
  unfold initializeRequest. run_handler. destruct s as [t h]; simpl.
  destruct (nrepl_sessions h !! "clj"); reflexivity.
Qed.

Lemma attachRequest_run (response : Response unit) (s : Runtime) :
  attachRequest response s
  = (Return (Fulfilled tt), s,
     [sendResponse (RAck response); sendEvent (StoppedEvent "breakpoint" 1)]).
Proof. unfold attachRequest. run_handler. reflexivity. Qed.

Lemma nextRequest_run (response : Response unit) (s : Runtime) :
  nextRequest response s
  = match nrepl_sessions (host s) !! "clj" with
    | None => (Return (Fulfilled tt), s, [sendResponse (RAck response)])
    | Some id =>
        match get_prop (slot_value s) "key" with
        | Return key =>
            (Return (Fulfilled tt), s,
             [sendDebugInput id ":next" key; sendResponse (RAck response)])
        | Throw e => (Return (Rejected e), s, [])
        end
    end.
Proof.
  unfold nextRequest, slot_value. run_handler. destruct s as [t h]; simpl.
  destruct (nrepl_sessions h !! "clj"); [| reflexivity].
  destruct (get_prop _ "key"); reflexivity.
Qed.

Lemma disconnectRequest_run (response : Response unit) (s : Runtime) :
  disconnectRequest response s
  = match nrepl_sessions (host s) !! "clj" with
    | None => (Return (Fulfilled tt), s, [sendResponse (RAck response)])
    | Some id =>
        match get_prop (slot_value s) "key" with
        | Return key =>
            (Return (Fulfilled tt), s,
             [sendDebugInput id ":quit" key; sendResponse (RAck response)])
        | Throw e => (Return (Rejected e), s, [])
        end
    end.
Proof.
  unfold disconnectRequest, slot_value. run_handler. destruct s as [t h]; simpl.
  destruct (nrepl_sessions h !! "clj"); [| reflexivity].
  destruct (get_prop _ "key"); reflexivity.
Qed.

Lemma stackTraceRequest_run (response : Response StackTraceBody) (s : Runtime) :
  stackTrace response s
  = match get_prop (slot_value s) "file" with
    | Return (VString f) =>
        (Return tt, s,
         [sendResponse (RStackTrace (set_body response
            {| stackFrames :=
                 [frame_of convertDebuggerPathToClient basename (this s) f];
               totalFrames := 1 |}))])
    | Return _ =>
        (Throw (TypeError "The path argument must be of type string"), s, [])
    | Throw e => (Throw e, s, [])
    end.
Proof.
  unfold stackTraceRequest, slot_value. run_handler. destruct s as [t h]; simpl.
  destruct (get_prop _ "file") as [[| | | | f |] |]; reflexivity.
Qed.

Lemma threadsRequest_run (response : Response ThreadsBody) (s : Runtime) :
  threadsRequest response s
  = (Return tt, s,
     [sendResponse (RThreads (set_body response
        {| threads := [ {| thread_id := 1; thread_name := "thread 1" |} ] |}))]).
Proof. reflexivity. Qed.

Lemma get_prop_nullish (v : value) (p : string) :
  (∃ e, get_prop v p = Throw e) ↔ nullish v = true.
Proof.
  destruct v; simpl; split; intros H; try discriminate; eauto;
    destruct H as [e H]; discriminate.
Qed.

Lemma handle_host (q : request) (s : Runtime) :
  host (final (handle q s)) = host s.
Proof.
  destruct q as [r a | r | r | r | r | r]; unfold handle.
  - rewrite initializeRequest_run.
    destruct (nrepl_sessions (host s) !! "clj"); reflexivity.
  - unfold mbind, M_bind, bind. rewrite attachRequest_run. reflexivity.
  - unfold mbind, M_bind, bind. rewrite disconnectRequest_run.
    destruct (nrepl_sessions (host s) !! "clj"); [| reflexivity].
    destruct (get_prop _ "key"); reflexivity.
  - unfold mbind, M_bind, bind. rewrite nextRequest_run.
    destruct (nrepl_sessions (host s) !! "clj"); [| reflexivity].
    destruct (get_prop _ "key"); reflexivity.
  - rewrite stackTraceRequest_run.
    destruct (get_prop _ "file") as [[| | | | f |] |]; reflexivity.
  - reflexivity.
Qed.

Lemma handle_all_host (qs : list request) (s : Runtime) :
  host (handle_all qs s).1 = host s.
Proof.
  revert s. induction qs as [| q qs IH]; intros s; [reflexivity |].
  cbn [handle_all fst]. rewrite IH. apply handle_host.
Qed.


(** X5: an initialize request is answered in exactly one of two ways:
    it sends a response if and only if a language session exists, and
    it emits the terminated event if and only if none exists. *)
Theorem X5_initialize_responds_or_terminates
    (response : Response (gmap string value))
    (args : InitializeRequestArguments) (s : Runtime) :
  (responses (sent (initializeRequest response args s)) ≠ []
   ↔ is_Some (nrepl_sessions (host s) !! "clj"))
  ∧ (sendEvent TerminatedEvent ∈ sent (initializeRequest response args s)
     ↔ nrepl_sessions (host s) !! "clj" = None).
Proof.
  rewrite initializeRequest_run.
  destruct (nrepl_sessions (host s) !! "clj") as [id |]; unfold sent; simpl.
  - split; split; try discriminate; eauto.
    intros Hin. apply list_elem_of_singleton in Hin. discriminate.
  - split; split; auto.
    + intros Hn. by destruct Hn.
    + intros [x Hx]. discriminate.
    + intros _. apply elem_of_cons. right. apply list_elem_of_singleton.
      reflexivity.
Qed.

(** X6: with a language session and a notification object in the slot,
    next sends the command :next and disconnect the command :quit to
    that session, tagged with the key entry of the notification
    ([undefined] when it has none), and then the response, in this
    order. *)
Theorem X6_step_commands_carry_the_key (response : Response unit)
    (s : Runtime) (id : nat) (o : gmap string value) :
  nrepl_sessions (host s) !! "clj" = Some id ->
  debug_slot s = Some (VObject o) ->
  sent (nextRequest response s)
  = [sendDebugInput id ":next" (default VUndefined (o !! "key"));
     sendResponse (RAck response)]
  ∧ sent (disconnectRequest response s)
    = [sendDebugInput id ":quit" (default VUndefined (o !! "key"));
       sendResponse (RAck response)].
Proof.
  intros Hs Ho.
  rewrite nextRequest_run, disconnectRequest_run, Hs.
  unfold slot_value. rewrite Ho. simpl. auto.
Qed.

(** X7: next and disconnect fail in one situation only: a language
    session exists and the slot holds [undefined] or [null].  Then the
    promise is rejected and nothing is sent; in every other state the
    promise is fulfilled and the response is the last message sent. *)
Theorem X7_step_rejected_iff (response : Response unit) (s : Runtime) :
  let aborts :=
    is_Some (nrepl_sessions (host s) !! "clj") ∧ nullish (slot_value s) = true in
  (aborts ->
     (∃ e, result (nextRequest response s) = Return (Rejected e))
     ∧ sent (nextRequest response s) = []
     ∧ (∃ e, result (disconnectRequest response s) = Return (Rejected e))
     ∧ sent (disconnectRequest response s) = [])
  ∧ (¬ aborts ->
       result (nextRequest response s) = Return (Fulfilled tt)
       ∧ last (sent (nextRequest response s)) = Some (sendResponse (RAck response))
       ∧ result (disconnectRequest response s) = Return (Fulfilled tt)
       ∧ last (sent (disconnectRequest response s))
         = Some (sendResponse (RAck response))).
Proof.
  simpl. rewrite nextRequest_run, disconnectRequest_run.
  destruct (nrepl_sessions (host s) !! "clj") as [id |].
  - destruct (get_prop (slot_value s) "key") as [key | e] eqn:E.
    + split.
      * intros [_ Hn].
        destruct (proj2 (get_prop_nullish _ "key") Hn) as [e He].
        rewrite He in E. discriminate.
      * intros _. unfold result, sent. simpl. auto.
    + split.
      * intros _. unfold result, sent. simpl. eauto 6.
      * intros Hn. exfalso. apply Hn. split; [eauto |].
        apply (proj1 (get_prop_nullish _ "key")). eauto.
  - split.
    + intros [[x Hx] _]. discriminate.
    + intros _. unfold result, sent. simpl. auto.
Qed.

(** X8: a stackTrace request returns normally if and only if the slot
    holds an object whose file entry is a string; in every other state
    (slot empty, null, a primitive, no file, a file that is no string)
    it throws and sends nothing. *)
Theorem X8_stackTrace_succeeds_iff (response : Response StackTraceBody)
    (s : Runtime) :
  (result (stackTrace response s) = Return tt
   ↔ ∃ o f, debug_slot s = Some (VObject o) ∧ o !! "file" = Some (VString f))
  ∧ (result (stackTrace response s) ≠ Return tt ->
       (∃ e, result (stackTrace response s) = Throw e)
       ∧ sent (stackTrace response s) = []).
Proof.
  rewrite stackTraceRequest_run. unfold slot_value, result, sent.
  destruct (debug_slot s) as [[| | b | n | str | o] |] eqn:E; simpl;
    try (split; [split; [discriminate | intros (o' & f' & Ho & _); discriminate]
                | intros _; eauto]).
  unfold field.
  destruct (o !! "file") as [[| | b | n | f |] |] eqn:Ef; simpl;
    try (split; [split; [discriminate
                        | intros (o' & f' & Ho & Hf); injection Ho as <-;
                          rewrite Ef in Hf; discriminate]
                | intros _; eauto]).
  split; [split; eauto | intros Hn; by destruct Hn].
Qed.

(** X9: no sequence of requests writes the environment: after any
    requests, handled in any order and whether or not some of them
    threw, the application state (the debug slot with it), the REPL
    sessions, the active editor and the active debug session are what
    they were. *)
Theorem X9_requests_leave_the_environment (qs : list request) (s : Runtime) :
  host (handle_all qs s).1 = host s.
Proof. apply handle_all_host. Qed.

(** X10: a handler sends at most one response per request, and the
    response it sends is the one it was handed: sequence number,
    command and success flag are those of the request. *)
Theorem X10_one_response_per_request (q : request) (s : Runtime) :
  responses (sent (handle q s)) = []
  ∨ ∃ r, responses (sent (handle q s)) = [r] ∧ any_header r = request_header q.
Proof.
  destruct q as [r a | r | r | r | r | r]; unfold handle.
  - rewrite initializeRequest_run.
    destruct (nrepl_sessions (host s) !! "clj"); [right | left];
      unfold sent; simpl; eauto.
  - unfold mbind, M_bind, bind. rewrite attachRequest_run.
    right. unfold sent. simpl. eauto.
  - unfold mbind, M_bind, bind. rewrite disconnectRequest_run.
    destruct (nrepl_sessions (host s) !! "clj");
      [destruct (get_prop _ "key"); [right | left] | right];
      unfold sent; simpl; eauto.
  - unfold mbind, M_bind, bind. rewrite nextRequest_run.
    destruct (nrepl_sessions (host s) !! "clj");
      [destruct (get_prop _ "key"); [right | left] | right];
      unfold sent; simpl; eauto.
  - rewrite stackTraceRequest_run.
    destruct (get_prop _ "file") as [[| | | | f |] |];
      try (left; reflexivity).
    right. unfold sent. simpl. eauto.
  - right. unfold sent. simpl. eauto.
Qed.



(** X19: the session raises events in two places only: the Stopped
    event comes from attach and the terminated event from an initialize
    request without a language session.  A next request in particular
    emits no event, nor do disconnect, stackTrace and threads. *)
Theorem X19_events_only_from_attach_and_initialize (q : request)
    (s : Runtime) (e : Event) :
  sendEvent e ∈ sent (handle q s) ->
  (e = StoppedEvent "breakpoint" 1 ∧ ∃ r, q = Attach r)
  ∨ (e = TerminatedEvent ∧ nrepl_sessions (host s) !! "clj" = None
     ∧ ∃ r a, q = Initialize r a).
Proof.
  destruct q as [r a | r | r | r | r | r]; unfold handle.
  - rewrite initializeRequest_run.
    destruct (nrepl_sessions (host s) !! "clj") eqn:E; unfold sent; simpl;
      intros H; in_trace H.
    injection H as ->. right. eauto.
  - unfold mbind, M_bind, bind. rewrite attachRequest_run.
    unfold sent; simpl. intros H; in_trace H.
    injection H as ->. left. eauto.
  - unfold mbind, M_bind, bind. rewrite disconnectRequest_run.
    destruct (nrepl_sessions (host s) !! "clj");
      [destruct (get_prop _ "key") |]; unfold sent; simpl;
      intros H; in_trace H.
  - unfold mbind, M_bind, bind. rewrite nextRequest_run.
    destruct (nrepl_sessions (host s) !! "clj");
      [destruct (get_prop _ "key") |]; unfold sent; simpl;
      intros H; in_trace H.
  - rewrite stackTraceRequest_run.
    destruct (get_prop _ "file") as [[| | | | f |] |]; unfold sent; simpl;
      intros H; in_trace H.
  - unfold sent; simpl. intros H; in_trace H.
Qed.

(** X20: a debug command reaches the REPL only from next (as :next) and
    from disconnect (as :quit), only on the session registered for clj,
    and always tagged with the key read from the value in the slot at
    that moment. *)
Theorem X20_commands_only_from_next_and_disconnect (q : request)
    (s : Runtime) (id : nat) (input : string) (key : value) :
  sendDebugInput id input key ∈ sent (handle q s) ->
  nrepl_sessions (host s) !! "clj" = Some id
  ∧ get_prop (slot_value s) "key" = Return key
  ∧ ((input = ":next" ∧ ∃ r, q = Next r)
     ∨ (input = ":quit" ∧ ∃ r, q = Disconnect r)).
Proof.
  destruct q as [r a | r | r | r | r | r]; unfold handle.
  - rewrite initializeRequest_run.
    destruct (nrepl_sessions (host s) !! "clj"); unfold sent; simpl;
      intros H; in_trace H.
  - unfold mbind, M_bind, bind. rewrite attachRequest_run.
    unfold sent; simpl. intros H; in_trace H.
  - unfold mbind, M_bind, bind. rewrite disconnectRequest_run.
    destruct (nrepl_sessions (host s) !! "clj");
      [destruct (get_prop _ "key") eqn:E |]; unfold sent; simpl;
      intros H; in_trace H.
    injection H as -> -> ->. eauto 7.
  - unfold mbind, M_bind, bind. rewrite nextRequest_run.
    destruct (nrepl_sessions (host s) !! "clj");
      [destruct (get_prop _ "key") eqn:E |]; unfold sent; simpl;
      intros H; in_trace H.
    injection H as -> -> ->. eauto 7.
  - rewrite stackTraceRequest_run.
    destruct (get_prop _ "file") as [[| | | | f |] |]; unfold sent; simpl;
      intros H; in_trace H.
  - unfold sent; simpl. intros H; in_trace H.
Qed.

End SessionCases.

(** ** The configuration provider, further *)

Lemma resolveDebugConfiguration_cases (h : Host) (folder : option string)
    (config : gmap string value) :
  resolveDebugConfiguration h folder config = config
  ∨ (unidentified config ∧ clojure_active h
     ∧ resolveDebugConfiguration h folder config
       = spread config CALVA_DEBUG_CONFIGURATION).
Proof.
  unfold resolveDebugConfiguration, unidentified, clojure_active.
  destruct (truthy (field config "type")); simpl; [by left |].
  destruct (truthy (field config "request")); simpl; [by left |].
  destruct (truthy (field config "name")); simpl; [by left |].
  destruct (activeTextEditor h) as [e |]; [| by left].
  destruct (String.eqb (languageId e) "clojure") eqn:E; [| by left].
  apply String.eqb_eq in E. right. simpl. by rewrite E.
Qed.

Lemma spread_default_type (config : gmap string value) :
  truthy (field (spread config CALVA_DEBUG_CONFIGURATION) "type") = true.
Proof. unfold field. by rewrite spread_lookup. Qed.

(** X13: resolving is idempotent: a configuration that went through the
    provider once goes through it unchanged afterwards, in the same
    environment and for any folder. *)
Theorem X13_resolveDebugConfiguration_idempotent (h : Host)
    (folder folder' : option string) (config : gmap string value) :
  resolveDebugConfiguration h folder'
    (resolveDebugConfiguration h folder config)
  = resolveDebugConfiguration h folder config.
Proof.
  change (resolveDebugConfiguration h folder'
            (resolveDebugConfiguration h folder config))
    with (resolveDebugConfiguration h folder
            (resolveDebugConfiguration h folder config)).
  destruct (resolveDebugConfiguration_cases h folder config)
    as [E | (Hu & Hc & E)]; rewrite E.
  - exact E.
  - unfold resolveDebugConfiguration. by rewrite spread_default_type.
Qed.

(** X14: the provider never removes an entry and never invents one:
    every key of the input is a key of the result, and every entry of
    the result is an entry of the input or one of the three default
    entries. *)
Theorem X14_resolveDebugConfiguration_entries (h : Host)
    (folder : option string) (config : gmap string value) :
  (∀ k, is_Some (config !! k) ->
        is_Some (resolveDebugConfiguration h folder config !! k))
  ∧ (∀ k v, resolveDebugConfiguration h folder config !! k = Some v ->
            config !! k = Some v ∨ CALVA_DEBUG_CONFIGURATION !! k = Some v).
Proof.
  destruct (resolveDebugConfiguration_cases h folder config)
    as [-> | (_ & _ & ->)]; [by auto |].
  split.
  - intros k Hk. rewrite spread_lookup.
    destruct (CALVA_DEBUG_CONFIGURATION !! k); [eauto | assumption].
  - intros k v. rewrite spread_lookup.
    destruct (CALVA_DEBUG_CONFIGURATION !! k); auto.
Qed.

(** X15: while a Clojure document is active, the result of the provider
    always names an adapter: its type, request and name are not all
    missing or falsy, whatever the input was. *)
Theorem X15_resolved_in_clojure_is_identified (h : Host)
    (folder : option string) (config : gmap string value) :
  clojure_active h ->
  ¬ unidentified (resolveDebugConfiguration h folder config).
Proof.
  intros Hc Hu.
  destruct (resolveDebugConfiguration_cases h folder config)
    as [E | (_ & _ & E)]; rewrite E in Hu.
  - unfold resolveDebugConfiguration, clojure_active in *.
    destruct Hu as (Ht & Hr & Hn). rewrite Ht, Hr, Hn in E. simpl in E.
    destruct (activeTextEditor h) as [e |]; [| discriminate].
    injection Hc as Hl. rewrite Hl in E. simpl in E.
    pose proof (spread_default_type config) as Hd.
    rewrite E, Ht in Hd. discriminate.
  - destruct Hu as (Ht & _). rewrite spread_default_type in Ht. discriminate.
Qed.

(** ** The factory, further *)

Section FactoryExtras.

Variable os_listen : nat -> option Z.
Variable servers0 : list server_state.

Local Abbreviation owns := (owns servers0).
Local Abbreviation closed := (closed_factory servers0).

Lemma call_owns (c : factory_call) (s : FactoryRuntime) :
  owns s -> owns (final (call os_listen c s)).
Proof.
  intros [| x]; destruct c;
    unfold call, createDebugAdapterDescriptor, createServer_listen, address,
      set_server, dispose, close, new_factory; run_handler.
  - rewrite lookup_listener.
    destruct (os_listen (length servers0)); simpl; constructor.
  - constructor.
  - rewrite lookup_listener. destruct x; simpl; constructor.
  - rewrite close_listener. constructor.
Qed.

Lemma run_calls_owns (cs : list factory_call) (s : FactoryRuntime) :
  owns s -> owns (run_calls os_listen cs s).2.
Proof.
  revert s. induction cs as [| c cs IH]; intros s Hs; [assumption |].
  apply IH. by apply call_owns.
Qed.

Lemma owns_servers (s : FactoryRuntime) :
  owns s ->
  take (length servers0) (servers (net s)) = servers0
  ∧ (length (servers (net s)) ≤ S (length servers0))%nat.
Proof.
  intros [| x]; simpl.
  - rewrite firstn_all. split; [reflexivity | lia].
  - rewrite take_app_length, length_app. simpl. split; [reflexivity | lia].
Qed.

Lemma run_calls_app (cs1 cs2 : list factory_call) (s : FactoryRuntime) :
  run_calls os_listen (cs1 ++ cs2) s
  = ((run_calls os_listen cs1 s).1
       ++ (run_calls os_listen cs2 (run_calls os_listen cs1 s).2).1,
     (run_calls os_listen cs2 (run_calls os_listen cs1 s).2).2).
Proof.
  revert s. induction cs1 as [| c cs1 IH]; intros s.
  - simpl. by destruct (run_calls os_listen cs2 s).
  - cbn [app run_calls fst snd]. rewrite IH. reflexivity.
Qed.

Lemma length_run_calls (cs : list factory_call) (s : FactoryRuntime) :
  length (run_calls os_listen cs s).1 = length cs.
Proof.
  revert s. induction cs as [| c cs IH]; intros s; [reflexivity |].
  cbn [run_calls fst length]. by rewrite IH.
Qed.

Lemma call_closed (c : factory_call) :
  call os_listen c closed
  = (match c with
     | Describe => Throw (TypeError "Cannot read property 'port' of null")
     | Dispose => Return None
     end, closed, []).
Proof.
  destruct c;
    unfold call, createDebugAdapterDescriptor, address, dispose, close,
      closed_factory; run_handler.
  - rewrite lookup_listener. reflexivity.
  - rewrite close_listener. reflexivity.
Qed.

Lemma run_calls_closed (cs : list factory_call) :
  (run_calls os_listen cs closed).2 = closed
  ∧ ∀ i, cs !! i = Some Describe ->
      (run_calls os_listen cs closed).1 !! i
      = Some (Throw (TypeError "Cannot read property 'port' of null")).
Proof.
  induction cs as [| c cs [IHs IHo]]; [split; [reflexivity | discriminate] |].
  cbn [run_calls fst snd]. rewrite call_closed. unfold final, result. simpl.
  split; [assumption |].
  intros [| i] Hi; simpl in *.
  - by injection Hi as ->.
  - by apply IHo.
Qed.

Lemma call_started (c : factory_call) (s : FactoryRuntime) :
  owns s ->
  c = Describe ∨ server (factory s) ≠ None ->
  server (factory (final (call os_listen c s))) ≠ None.
Proof.
  intros [| x] Hc; destruct c;
    unfold call, createDebugAdapterDescriptor, createServer_listen, address,
      set_server, dispose, close, new_factory in *; run_handler;
    try discriminate.
  - rewrite lookup_listener.
    destruct (os_listen (length servers0)); simpl; discriminate.
  - destruct Hc as [Hc | Hc]; [discriminate | by destruct Hc].
  - rewrite lookup_listener. destruct x; simpl; discriminate.
Qed.

Lemma run_calls_started (cs : list factory_call) (s : FactoryRuntime) :
  owns s ->
  Describe ∈ cs ∨ server (factory s) ≠ None ->
  server (factory (run_calls os_listen cs s).2) ≠ None.
Proof.
  revert s. induction cs as [| c cs IH]; intros s Hs Hc.
  - destruct Hc as [Hc | Hc]; [by apply elem_of_nil in Hc | exact Hc].
  - cbn [run_calls snd]. apply IH; [by apply call_owns |].
    destruct Hc as [Hc | Hc].
    + apply elem_of_cons in Hc as [<- | Hc]; [| by left].
      right. apply call_started; auto.
    + right. apply call_started; auto.
Qed.

Lemma dispose_started (s : FactoryRuntime) :
  owns s ->
  server (factory s) ≠ None ->
  call os_listen Dispose s = (Return None, closed, []).
Proof.
  intros [| x] Hn; [by destruct Hn |].
  unfold call, dispose, close, closed_factory; run_handler.
  rewrite close_listener. reflexivity.
Qed.

(** X16: whatever calls a factory receives and whether or not the
    operating system binds its port, the servers the process had before
    the factory was made are untouched, and the factory adds at most
    one server to them. *)
Theorem X16_factory_touches_only_its_server (cs : list factory_call) :
  let s' := (run_calls os_listen cs (new_factory servers0)).2 in
  take (length servers0) (servers (net s')) = servers0
  ∧ (length (servers (net s')) ≤ S (length servers0))%nat.
Proof.
  simpl. apply owns_servers, run_calls_owns. constructor.
Qed.

(** X17: disposing a factory that never described an adapter does
    nothing at all, however often it is repeated: every call returns
    normally, no server is created and the factory is as new. *)
Theorem X17_dispose_unused_factory (m : nat) :
  run_calls os_listen (repeat Dispose m) (new_factory servers0)
  = (repeat (Return None) m, new_factory servers0).
Proof.
  assert (E : call os_listen Dispose (new_factory servers0)
              = (Return None, new_factory servers0, [])) by reflexivity.
  induction m as [| m IH]; [reflexivity |].
  cbn [repeat run_calls]. rewrite E. unfold final, result. simpl.
  rewrite IH. reflexivity.
Qed.

(** X18: dispose closes the listener but the factory keeps referring to
    it: once the factory has described an adapter and has then been
    disposed, every later createDebugAdapterDescriptor throws a
    TypeError (the closed server has no address), and no second server
    is ever created. *)
Theorem X18_disposed_factory_throws (cs1 cs2 : list factory_call) (i : nat) :
  Describe ∈ cs1 ->
  cs2 !! i = Some Describe ->
  let r := run_calls os_listen (cs1 ++ Dispose :: cs2) (new_factory servers0) in
  r.1 !! (length cs1 + S i)%nat
  = Some (Throw (TypeError "Cannot read property 'port' of null"))
  ∧ r.2 = closed_factory servers0.
Proof.
  intros Hd Hi. simpl.
  rewrite run_calls_app. cbn [run_calls fst snd].
  set (s1 := (run_calls os_listen cs1 (new_factory servers0)).2).
  assert (Ho : owns s1) by (apply run_calls_owns; constructor).
  assert (Hs : server (factory s1) ≠ None)
    by (apply run_calls_started; [constructor | by left]).
  rewrite (dispose_started s1 Ho Hs). unfold final, result. simpl.
  destruct (run_calls_closed cs2) as [Hc Ht].
  split; [| exact Hc].
  rewrite lookup_app_r by (rewrite length_run_calls; lia).
  rewrite length_run_calls.
  replace (length cs1 + S i - length cs1)%nat with (S i) by lia.
  simpl. by apply Ht.
Qed.

End FactoryExtras.

(** ** The life of the listener *)

Lemma shut_nil : ¬ shut [].
Proof. intros (i & j & _ & Hi & _). discriminate. Qed.

Lemma shut_cons_Dispose (cs : list factory_call) :
  shut (Dispose :: cs) ↔ shut cs.
Proof.
  split.
  - intros (i & j & Hlt & Hi & Hj).
    destruct i as [| i]; [discriminate |].
    destruct j as [| j]; [lia |].
    exists i, j. simpl in *. split; [lia | auto].
  - intros (i & j & Hlt & Hi & Hj).
    exists (S i), (S j). simpl. split; [lia | auto].
Qed.

Lemma shut_cons_Describe (cs : list factory_call) :
  shut (Describe :: cs) ↔ Dispose ∈ cs.
Proof.
  split.
  - intros (i & j & Hlt & _ & Hj).
    destruct j as [| j]; [lia |].
    apply list_elem_of_lookup. eauto.
  - intros Hin. apply list_elem_of_lookup in Hin as [j Hj].
    exists 0%nat, (S j). simpl. split; [lia | auto].
Qed.

Lemma shut_described (cs : list factory_call) : shut cs -> Describe ∈ cs.
Proof.
  intros (i & j & _ & Hi & _). apply list_elem_of_lookup. eauto.
Qed.

Section FactoryLifecycle.

Variable os_listen : nat -> option Z.
Variable servers0 : list server_state.
Variable p : Z.
Hypothesis bind_ok : os_listen (length servers0) = Some p.

Local Abbreviation unused := (new_factory servers0).
Local Abbreviation opened := (opened_factory servers0 p).
Local Abbreviation closed := (closed_factory servers0).
Local Abbreviation run := (run_calls os_listen).

Lemma call_unused (c : factory_call) :
  call os_listen c unused
  = match c with
    | Describe => (Return (Some {| descriptor_port := p |}), opened, [])
    | Dispose => (Return None, unused, [])
    end.
Proof.
  destruct c; [| reflexivity].
  unfold call, createDebugAdapterDescriptor, createServer_listen, address,
    set_server, new_factory, opened_factory; run_handler.
  rewrite bind_ok, lookup_listener. reflexivity.
Qed.

Lemma call_opened (c : factory_call) :
  call os_listen c opened
  = match c with
    | Describe => (Return (Some {| descriptor_port := p |}), opened, [])
    | Dispose => (Return None, closed, [])
    end.
Proof.
  destruct c;
    unfold call, createDebugAdapterDescriptor, address, dispose, close,
      opened_factory, closed_factory; run_handler.
  - rewrite lookup_listener. reflexivity.
  - rewrite close_listener. reflexivity.
Qed.

Lemma run_opened (cs : list factory_call) :
  ((Dispose ∉ cs) ∧ (run cs opened).2 = opened)
  ∨ (Dispose ∈ cs ∧ (run cs opened).2 = closed).
Proof.
  induction cs as [| c cs IH].
  - left. split; [apply not_elem_of_nil | reflexivity].
  - cbn [run_calls snd]. rewrite call_opened. destruct c; unfold final; simpl.
    + destruct IH as [[Hn E] | [Hy E]].
      * left. split; [| exact E].
        intros Hin. apply elem_of_cons in Hin as [Hin | Hin];
          [discriminate | contradiction].
      * right. split; [by apply list_elem_of_further | exact E].
    + right. split; [apply list_elem_of_here |].
      apply (run_calls_closed os_listen servers0 cs).
Qed.

Lemma run_unused (cs : list factory_call) :
  ((Describe ∉ cs) ∧ (run cs unused).2 = unused)
  ∨ (Describe ∈ cs ∧ ¬ shut cs ∧ (run cs unused).2 = opened)
  ∨ (shut cs ∧ (run cs unused).2 = closed).
Proof.
  induction cs as [| c cs IH].
  - left. split; [apply not_elem_of_nil | reflexivity].
  - cbn [run_calls snd]. rewrite call_unused. destruct c; unfold final; simpl.
    + destruct (run_opened cs) as [[Hn E] | [Hy E]].
      * right. left. split; [apply list_elem_of_here |].
        split; [| exact E]. by rewrite shut_cons_Describe.
      * right. right. split; [| exact E]. by apply shut_cons_Describe.
    + destruct IH as [[Hn E] | [(Hy & Hs & E) | [Hs E]]].
      * left. split; [| exact E].
        intros Hin. apply elem_of_cons in Hin as [Hin | Hin];
          [discriminate | contradiction].
      * right. left. split; [by apply list_elem_of_further |].
        split; [| exact E]. by rewrite shut_cons_Dispose.
      * right. right. split; [| exact E]. by apply shut_cons_Dispose.
Qed.

Lemma run_unused_live (cs : list factory_call) :
  ¬ shut cs -> live servers0 p (run cs unused).2.
Proof.
  intros Hs.
  destruct (run_unused cs) as [[_ E] | [(_ & _ & E) | [Hy _]]];
    [| | contradiction]; rewrite E; constructor.
Qed.

(** C9 (amended): a new factory whose listener the operating system
    binds to port [p], driven by any sequence of calls.  The listener
    is created at most once, by the first createDebugAdapterDescriptor:
    before that call the factory holds no server and the process has no
    new one; from then on the factory holds exactly the one server it
    added, listening on [p] until a dispose closes it, and closed for
    good afterwards.  Every createDebugAdapterDescriptor made while no
    earlier call has disposed the listener returns the descriptor of
    port [p] (a dispose that found no listener does not count); every
    descriptor ever returned names [p]; every dispose returns normally,
    with or without a listener and however often it is repeated. *)
Theorem C9_factory_listener_until_disposed (cs : list factory_call) :
  let outs := (run_calls os_listen cs (new_factory servers0)).1 in
  let s' := (run_calls os_listen cs (new_factory servers0)).2 in
  (Describe ∉ cs -> s' = new_factory servers0)
  ∧ (Describe ∈ cs -> ¬ shut cs -> s' = opened_factory servers0 p)
  ∧ (shut cs -> s' = closed_factory servers0)
  ∧ (length (servers (net s')) ≤ S (length servers0))%nat
  ∧ (∀ pre post, cs = pre ++ Describe :: post -> ¬ shut pre ->
       outs !! length pre = Some (Return (Some {| descriptor_port := p |})))
  ∧ (∀ d, Return (Some d) ∈ outs -> descriptor_port d = p)
  ∧ (∀ i, cs !! i = Some Dispose -> outs !! i = Some (Return None)).
Proof.
  simpl. repeat apply conj.
  - intros Hn.
    destruct (run_unused cs) as [[_ E] | [(Hy & _) | [Hs _]]];
      [exact E | contradiction | by apply shut_described in Hs].
  - intros Hy Hs.
    destruct (run_unused cs) as [[Hn _] | [(_ & _ & E) | [Hs' _]]];
      [contradiction | exact E | contradiction].
  - intros Hs.
    destruct (run_unused cs) as [[Hn _] | [(_ & Hs' & _) | [_ E]]];
      [by apply shut_described in Hs | contradiction | exact E].
  - destruct (run_unused cs) as [[_ E] | [(_ & _ & E) | [_ E]]];
      rewrite E; simpl; rewrite ?length_app; simpl; lia.
  - intros pre post -> Hs.
    rewrite run_calls_app. cbn [run_calls fst].
    rewrite lookup_app_r by (rewrite length_run_calls; lia).
    rewrite length_run_calls, Nat.sub_diag. simpl. f_equal.
    by apply (describe_live os_listen servers0 p bind_ok), run_unused_live.
  - intros d. apply (run_calls_ports os_listen servers0 p bind_ok). constructor.
  - intros i. apply (run_calls_dispose os_listen servers0 p bind_ok). constructor.
Qed.

End FactoryLifecycle.

(** ** Concrete runs of the further properties *)

Lemma X3_started_configuration_passes_provider_witness :
  startDebugging CALVA_DEBUG_CONFIGURATION
    ∈ sent (handleDebugResponse (VObject notification_k1) connected_host)
  ∧ resolveDebugConfiguration disconnected_host None CALVA_DEBUG_CONFIGURATION
    = CALVA_DEBUG_CONFIGURATION.
Proof.
  assert (Hin : startDebugging CALVA_DEBUG_CONFIGURATION
                  ∈ sent (handleDebugResponse (VObject notification_k1)
                            connected_host))
    by (apply list_elem_of_singleton; reflexivity).
  split; [exact Hin |].
  exact (X3_started_configuration_passes_provider (VObject notification_k1)
           connected_host disconnected_host None CALVA_DEBUG_CONFIGURATION Hin).
Defined.


Lemma X6_step_commands_carry_the_key_witness :
  nrepl_sessions (host (with_notification (VObject notification_nokey) connected))
    !! "clj" = Some 0%nat
  ∧ debug_slot (with_notification (VObject notification_nokey) connected)
    = Some (VObject notification_nokey)
  ∧ sent (nextRequest next_4
            (with_notification (VObject notification_nokey) connected))
    = [sendDebugInput 0 ":next" VUndefined; sendResponse (RAck next_4)].
Proof.
  split; [reflexivity |]. split; [reflexivity |].
  destruct (X6_step_commands_carry_the_key next_4
              (with_notification (VObject notification_nokey) connected)
              0%nat notification_nokey) as [Hnext _];
    [reflexivity | reflexivity |].
  exact Hnext.
Defined.



Lemma X15_resolved_in_clojure_is_identified_witness :
  clojure_active connected_host
  ∧ ¬ unidentified (resolveDebugConfiguration connected_host None noDebug_config)
  ∧ ¬ unidentified (resolveDebugConfiguration connected_host None node_config).
Proof.
  assert (Hc : clojure_active connected_host) by reflexivity.
  split; [exact Hc |]. split.
  - exact (X15_resolved_in_clojure_is_identified connected_host None
             noDebug_config Hc).
  - exact (X15_resolved_in_clojure_is_identified connected_host None
             node_config Hc).
Defined.

Lemma X18_disposed_factory_throws_witness :
  Describe ∈ [Describe]
  ∧ [Describe; Dispose] !! 0%nat = Some Describe
  ∧ (run_calls ephemeral ([Describe] ++ Dispose :: [Describe; Dispose])
       (new_factory [])).1 !! 2%nat
    = Some (Throw (TypeError "Cannot read property 'port' of null"))
  ∧ (run_calls ephemeral ([Describe] ++ Dispose :: [Describe; Dispose])
       (new_factory [])).2
    = closed_factory [].
Proof.
  assert (Hd : Describe ∈ [Describe])
    by (apply list_elem_of_singleton; reflexivity).
  split; [exact Hd |]. split; [reflexivity |].
  exact (X18_disposed_factory_throws ephemeral [] [Describe]
           [Describe; Dispose] 0%nat Hd eq_refl).
Defined.

Lemma X19_events_only_from_attach_and_initialize_witness :
  sendEvent (StoppedEvent "breakpoint" 1)
    ∈ sent (handle same_path whole_path (Attach next_4) connected)
  ∧ ((StoppedEvent "breakpoint" 1 = StoppedEvent "breakpoint" 1
      ∧ ∃ r, Attach next_4 = Attach r)
     ∨ (StoppedEvent "breakpoint" 1 = TerminatedEvent
        ∧ nrepl_sessions (host connected) !! "clj" = None
        ∧ ∃ r a, Attach next_4 = Initialize r a)).
Proof.
  assert (Hin : sendEvent (StoppedEvent "breakpoint" 1)
                  ∈ sent (handle same_path whole_path (Attach next_4) connected))
    by (apply elem_of_cons; right; apply list_elem_of_singleton; reflexivity).
  split; [exact Hin |].
  exact (X19_events_only_from_attach_and_initialize same_path whole_path
           (Attach next_4) connected (StoppedEvent "breakpoint" 1) Hin).
Defined.

Lemma X20_commands_only_from_next_and_disconnect_witness :
  sendDebugInput 0 ":next" (VString "k1")
    ∈ sent (handle same_path whole_path (Next next_4) stopped_at_b)
  ∧ nrepl_sessions (host stopped_at_b) !! "clj" = Some 0%nat
  ∧ get_prop (slot_value stopped_at_b) "key" = Return (VString "k1").
Proof.
  assert (Hin : sendDebugInput 0 ":next" (VString "k1")
                  ∈ sent (handle same_path whole_path (Next next_4) stopped_at_b))
    by (apply elem_of_cons; left; reflexivity).
  split; [exact Hin |].
  destruct (X20_commands_only_from_next_and_disconnect same_path whole_path
              (Next next_4) stopped_at_b 0%nat ":next" (VString "k1") Hin)
    as (Hs & Hk & _).
  split; [exact Hs | exact Hk].
Defined.

(** C9, as stated, fails: the operating system binds the listener, the
    first call returns the descriptor of port 49152, and after a
    dispose the next call to the factory operation returns no
    descriptor at all; it throws. *)
Lemma C9_counterexample_describe_after_dispose :
  ephemeral (length (@nil server_state)) = Some 49152%Z
  ∧ (run_calls ephemeral [Describe; Dispose; Describe] (new_factory [])).1
    = [Return (Some {| descriptor_port := 49152 |});
       Return None;
       Throw (TypeError "Cannot read property 'port' of null")]
  ∧ ¬ ∃ d, (run_calls ephemeral [Describe; Dispose; Describe] (new_factory [])).1
           !! 2%nat = Some (Return (Some d)).
Proof.
  split; [reflexivity |]. split; [reflexivity |].
  intros [d Hd]. discriminate Hd.
Qed.

Lemma C9_factory_listener_until_disposed_witness :
  ephemeral (length (@nil server_state)) = Some 49152%Z
  ∧ (run_calls ephemeral [Dispose; Describe; Describe; Dispose; Dispose]
       (new_factory [])).2
    = closed_factory []
  ∧ (run_calls ephemeral [Dispose; Describe; Describe; Dispose; Dispose]
       (new_factory [])).1 !! 2%nat
    = Some (Return (Some {| descriptor_port := 49152 |}))
  ∧ (run_calls ephemeral [Dispose; Describe; Describe; Dispose; Dispose]
       (new_factory [])).1 !! 4%nat
    = Some (Return None)
  ∧ (run_calls ephemeral [Dispose; Describe] (new_factory [])).2
    = opened_factory [] 49152.
Proof.
  split; [reflexivity |].
  destruct (C9_factory_listener_until_disposed ephemeral [] 49152%Z eq_refl
              [Dispose; Describe; Describe; Dispose; Dispose])
    as (_ & _ & Hshut & _ & Hdescribe & _ & Hdispose).
  destruct (C9_factory_listener_until_disposed ephemeral [] 49152%Z eq_refl
              [Dispose; Describe])
    as (_ & Hopen & _).
  split.
  { apply Hshut. exists 1%nat, 3%nat. split; [lia | split; reflexivity]. }
  split.
  { apply (Hdescribe [Dispose; Describe] [Dispose; Dispose]); [reflexivity |].
    intros (i & j & Hlt & Hi & Hj).
    destruct j as [| [| j]]; [lia | discriminate | discriminate]. }
  split; [apply Hdispose; reflexivity |].
  apply Hopen.
  - apply list_elem_of_further, list_elem_of_here.
  - intros (i & j & Hlt & Hi & Hj).
    destruct j as [| [| j]]; [lia | discriminate | discriminate].
Defined.
